(** * create-multiple-vms.py: the LibGo Windows VM provisioning script

    A shallow embedding of [examples/windows-vm-setup/create-multiple-vms.py]
    and the properties of its template catalog, request builder, control
    plane client and provisioning workflow.

    Python values are a small inductive type, dictionaries are association
    lists in insertion order, and effectful code lives in a state and
    exception monad over the trace of observable events (HTTP requests,
    printed lines, sleeps).  The network, the file system and Python's
    formatting of containers and floats are parameters of the development. *)

From Stdlib Require Import ZArith List String Ascii Bool Lia.
From Stdlib Require Import DecimalString.
Import ListNotations.
Local Open Scope string_scope.
Local Open Scope Z_scope.

(** ** Python values *)

(** The JSON shaped fragment of Python's values: [None], booleans, integers,
    strings, lists and dictionaries with string keys.  Floats are left out. *)
#[warnings="-register-all"]
Inductive pyval : Type :=
| PyNone
| PyBool (b : bool)
| PyInt (z : Z)
| PyStr (s : string)
| PyList (l : list pyval)
| PyDict (d : list (string * pyval)).

Definition dict := list (string * pyval).

Module Dict.

Fixpoint get {A} (k : string) (d : list (string * A)) : option A :=
  match d with
  | [] => None
  | (k', v) :: d' => if String.eqb k k' then Some v else get k d'
  end.

(** [d[k] = v]: overwrite in place when the key exists, append otherwise. *)
Fixpoint set {A} (k : string) (v : A) (d : list (string * A)) : list (string * A) :=
  match d with
  | [] => [(k, v)]
  | (k', v') :: d' =>
      if String.eqb k k' then (k, v) :: d' else (k', v') :: set k v d'
  end.

(** A dict display [{k1: v1, ..., **m, ...}] once flattened to its items:
    later items win, the first occurrence keeps its position. *)
Definition of_items {A} (items : list (string * A)) : list (string * A) :=
  fold_left (fun d kv => set (fst kv) (snd kv) d) items [].

Definition keys {A} (d : list (string * A)) : list string := map fst d.

Definition mem {A} (k : string) (d : list (string * A)) : bool :=
  match get k d with Some _ => true | None => false end.

End Dict.

(** Truth value testing ([if x:], [x or y]). *)
Definition truthy (v : pyval) : bool :=
  match v with
  | PyNone => false
  | PyBool b => b
  | PyInt z => negb (z =? 0)
  | PyStr s => negb (String.eqb s "")
  | PyList l => match l with [] => false | _ => true end
  | PyDict d => match d with [] => false | _ => true end
  end.

Definition py_or (x y : pyval) : pyval := if truthy x then x else y.

Definition type_name (v : pyval) : string :=
  match v with
  | PyNone => "NoneType"
  | PyBool _ => "bool"
  | PyInt _ => "int"
  | PyStr _ => "str"
  | PyList _ => "list"
  | PyDict _ => "dict"
  end.

(** An optional command line string ([None] when the flag is not given). *)
Definition of_opt (o : option string) : pyval :=
  match o with Some s => PyStr s | None => PyNone end.

(** ** Strings *)

Definition string_of_Z (z : Z) : string := NilZero.string_of_int (Z.to_int z).

(** [sep.join(parts)] *)
Fixpoint join (sep : string) (parts : list string) : string :=
  match parts with
  | [] => ""
  | [p] => p
  | p :: ps => p ++ sep ++ join sep ps
  end.

(** [c * n] for a one character string *)
Fixpoint repeat_char (c : ascii) (n : nat) : string :=
  match n with
  | O => ""
  | S n' => String c (repeat_char c n')
  end.

(** [s.rstrip('/')] *)
Fixpoint rstrip_slash (s : string) : string :=
  match s with
  | EmptyString => EmptyString
  | String c s' =>
      match rstrip_slash s' with
      | EmptyString => if Ascii.eqb c "/" then EmptyString else String c EmptyString
      | t => String c t
      end
  end.

(** [s.replace(old, "")] for a non-empty [old]: occurrences are found left to
    right and do not overlap.  [skip] counts the characters of a match that
    are still to be dropped. *)
Fixpoint remove_all_from (old : string) (skip : nat) (s : string) : string :=
  match s with
  | EmptyString => EmptyString
  | String c s' =>
      match skip with
      | S k => remove_all_from old k s'
      | O =>
          if String.prefix old s
          then remove_all_from old (Nat.pred (String.length old)) s'
          else String c (remove_all_from old O s')
      end
  end.

Definition remove_all (old s : string) : string := remove_all_from old O s.

(** The characters of a string, as [for ch in s] yields them. *)
Fixpoint chars (s : string) : list pyval :=
  match s with
  | EmptyString => []
  | String c s' => PyStr (String c EmptyString) :: chars s'
  end.

(** ** Configuration *)

Definition API_BASE_URL : string := "http://localhost:8080/api/v1".
Definition DEFAULT_TIMEOUT : Z := 30.

Definition GiB : Z := 1024 * 1024 * 1024.

Definition VM_TEMPLATES : list (string * dict) :=
  [ ("windows-11-basic",
      [ ("template", PyStr "windows-11");
        ("cpu", PyDict [("count", PyInt 4); ("cores", PyInt 2);
                        ("threads", PyInt 1); ("socket", PyInt 2)]);
        ("memory", PyDict [("sizeBytes", PyInt (8 * 1024 * 1024 * 1024))]);
        ("disk", PyDict [("sizeBytes", PyInt (100 * 1024 * 1024 * 1024));
                         ("format", PyStr "qcow2"); ("bus", PyStr "sata")]) ]);
    ("windows-11-developer",
      [ ("template", PyStr "windows-11");
        ("cpu", PyDict [("count", PyInt 8); ("cores", PyInt 4);
                        ("threads", PyInt 1); ("socket", PyInt 2)]);
        ("memory", PyDict [("sizeBytes", PyInt (16 * 1024 * 1024 * 1024))]);
        ("disk", PyDict [("sizeBytes", PyInt (250 * 1024 * 1024 * 1024));
                         ("format", PyStr "qcow2"); ("bus", PyStr "virtio")]) ]);
    ("windows-server-web",
      [ ("template", PyStr "windows-server-2022");
        ("cpu", PyDict [("count", PyInt 4); ("cores", PyInt 2);
                        ("threads", PyInt 1); ("socket", PyInt 2)]);
        ("memory", PyDict [("sizeBytes", PyInt (8 * 1024 * 1024 * 1024))]);
        ("disk", PyDict [("sizeBytes", PyInt (80 * 1024 * 1024 * 1024));
                         ("format", PyStr "qcow2"); ("bus", PyStr "virtio")]) ]);
    ("windows-server-database",
      [ ("template", PyStr "windows-server-2022");
        ("cpu", PyDict [("count", PyInt 8); ("cores", PyInt 4);
                        ("threads", PyInt 1); ("socket", PyInt 2)]);
        ("memory", PyDict [("sizeBytes", PyInt (32 * 1024 * 1024 * 1024))]);
        ("disk", PyDict [("sizeBytes", PyInt (500 * 1024 * 1024 * 1024));
                         ("format", PyStr "qcow2"); ("bus", PyStr "virtio")]) ]) ].

(** ** Effects *)

(** Python exceptions: [SystemExit] is not an [Exception], everything else
    the script can meet is, and carries its class name and [str(e)]. *)
Inductive exn : Type :=
| SystemExit (code : Z)
| PyExc (cls msg : string).

Inductive res (A : Type) : Type :=
| Ok (a : A)
| Err (e : exn).
Arguments Ok {A} a.
Arguments Err {A} e.

Inductive http_method : Type := GET | POST | PUT | DELETE.

(** A call of the session as the script makes it.  [rq_headers] holds the
    entries the script has put into [session.headers]; the entries that
    [requests.Session()] starts with (User-Agent, Accept-Encoding, Accept,
    Connection) and whatever the library adds when it sends are not
    modelled. *)
Record request : Type := mkRequest {
  rq_method : http_method;
  rq_url : string;
  rq_headers : list (string * string);
  rq_json : option pyval;
  rq_timeout : Z }.

(** What the script reads of a [requests.Response]: [json] is the value of
    [response.json()], or the message of the error it raises. *)
Record response : Type := mkResponse {
  status_code : Z;
  text : string;
  json : string + pyval }.

(** A round trip either raises (timeout, DNS, refused connection, ...) or
    yields a response. *)
Inductive net_result : Type :=
| NetRaise (cls msg : string)
| NetResp (r : response).

(** [open(path)] followed by [json.load(f)]. *)
Inductive file_result : Type :=
| OpenRaises (cls msg : string)
| LoadRaises (cls msg : string)
| Loaded (v : pyval).

Inductive event : Type :=
| EvHttp (rq : request)
| EvPrint (line : string)
| EvSleep (secs : Z).

Definition trace := list event.

(** Computations read and extend the trace and end in a value or an
    exception. *)
Definition M (A : Type) : Type := trace -> res A * trace.

Definition ret {A} (a : A) : M A := fun tr => (Ok a, tr).

Definition bind {A B} (m : M A) (k : A -> M B) : M B :=
  fun tr =>
    match m tr with
    | (Ok a, tr') => k a tr'
    | (Err e, tr') => (Err e, tr')
    end.

Definition raise {A} (e : exn) : M A := fun tr => (Err e, tr).

Definition emit (e : event) : M unit := fun tr => (Ok tt, (tr ++ [e])%list).

Notation "x <- m ;; k" := (bind m (fun x => k))
  (at level 61, m at next level, right associativity).
Notation "m ;; k" := (bind m (fun _ => k))
  (at level 61, right associativity).

(** [try: body  except Exception as e: handler(str(e))] *)
Definition try_except {A} (body : M A) (handler : string -> M A) : M A :=
  fun tr =>
    match body tr with
    | (Err (PyExc _ msg), tr') => handler msg tr'
    | r => r
    end.

(** [for x in xs: body(x)] *)
Fixpoint for_each {A} (xs : list A) (body : A -> M unit) : M unit :=
  match xs with
  | [] => ret tt
  | x :: xs' => body x ;; for_each xs' body
  end.

Definition print (line : string) : M unit := emit (EvPrint line).
Definition sleep (secs : Z) : M unit := emit (EvSleep secs).
Definition sys_exit {A} (code : Z) : M A := raise (SystemExit code).

(** *** Operations on values that can raise *)

(** [v[k]] for a string key *)
Definition subscript (v : pyval) (k : string) : M pyval :=
  match v with
  | PyDict d =>
      match Dict.get k d with
      | Some x => ret x
      | None => raise (PyExc "KeyError" ("'" ++ k ++ "'"))
      end
  | PyList _ =>
      raise (PyExc "TypeError" "list indices must be integers or slices, not str")
  | PyStr _ =>
      raise (PyExc "TypeError" "string indices must be integers, not 'str'")
  | _ =>
      raise (PyExc "TypeError" ("'" ++ type_name v ++ "' object is not subscriptable"))
  end.

(** [v.get(k, default)] *)
Definition method_get (v : pyval) (k : string) (default : pyval) : M pyval :=
  match v with
  | PyDict d =>
      match Dict.get k d with
      | Some x => ret x
      | None => ret default
      end
  | _ =>
      raise (PyExc "AttributeError"
               ("'" ++ type_name v ++ "' object has no attribute 'get'"))
  end.

(** The items [for x in v] goes through *)
Definition iterate (v : pyval) : M (list pyval) :=
  match v with
  | PyList l => ret l
  | PyDict d => ret (map PyStr (Dict.keys d))
  | PyStr s => ret (chars s)
  | _ => raise (PyExc "TypeError" ("'" ++ type_name v ++ "' object is not iterable"))
  end.

(** [len(v)] *)
Definition py_len (v : pyval) : M Z :=
  match v with
  | PyList l => ret (Z.of_nat (List.length l))
  | PyDict d => ret (Z.of_nat (List.length d))
  | PyStr s => ret (Z.of_nat (String.length s))
  | _ => raise (PyExc "TypeError" ("object of type '" ++ type_name v ++ "' has no len()"))
  end.

(** [v in d] for a dictionary with string keys: lists and dictionaries are
    not hashable, other values that are not strings equal no key. *)
Definition key_in {A} (v : pyval) (d : list (string * A)) : M bool :=
  match v with
  | PyStr s => ret (Dict.mem s d)
  | PyList _ | PyDict _ =>
      raise (PyExc "TypeError" ("unhashable type: '" ++ type_name v ++ "'"))
  | _ => ret false
  end.

(** [v / (1024**3)] is a float.  The quotient of an integer rounds to a
    finite double exactly when the integer is below [(2**54 - 1) * 2**1000]
    in absolute value; from there on Python raises [OverflowError]. *)
Definition float_limit : Z := Z.shiftl (Z.shiftl 1 54 - 1) 1000.

Definition fits_float (z : Z) : bool := Z.abs z <? float_limit.

(** The left operand of [v / (1024**3)] *)
Definition dividend (v : pyval) : M Z :=
  match v with
  | PyInt z =>
      if fits_float z then ret z
      else raise (PyExc "OverflowError" "integer division result too large for a float")
  | PyBool b => ret (Z.b2z b)
  | _ =>
      raise (PyExc "TypeError"
               ("unsupported operand type(s) for /: '" ++ type_name v ++ "' and 'int'"))
  end.

Definition response_json (r : response) : M pyval :=
  match json r with
  | inr v => ret v
  | inl msg => raise (PyExc "JSONDecodeError" msg)
  end.

(** ** The script *)

Definition nl : string := String (ascii_of_nat 10) EmptyString.

Section Script.

(** The control plane as the client sees it: the outcome of a round trip
    may depend on the request and on everything that happened before. *)
Variable net : trace -> request -> net_result.

(** The file system, read only. *)
Variable fs : string -> file_result.

(** [str(v)] for lists and dictionaries. *)
Variable py_repr : pyval -> string.

(** [f"{bytes / (1024**3):.<digits>f}"] *)
Variable format_gib : nat -> Z -> string.

(** What [parser.print_help()] writes. *)
Variable help_text : string.

(** [str(v)], as [print] and f-strings apply it. *)
Definition py_str (v : pyval) : string :=
  match v with
  | PyNone => "None"
  | PyBool true => "True"
  | PyBool false => "False"
  | PyInt z => string_of_Z z
  | PyStr s => s
  | PyList _ | PyDict _ => py_repr v
  end.

(** *** LibGoClient *)

(** The client: its base URL and the entries [__init__] puts into the
    headers of its session. *)
Record LibGoClient : Type := mkClient {
  base_url : string;
  headers : list (string * string) }.

(** [__init__] *)
Definition new_client (url : string) (auth_token : option string) : LibGoClient :=
  {| base_url := rstrip_slash url;
     headers :=
       match auth_token with
       | Some tok =>
           if truthy (PyStr tok) then [("Authorization", "Bearer " ++ tok)] else []
       | None => []
       end |}.

(** One call of [self.session.get/post/put/delete(url, json=..., timeout=...)]. *)
Definition send (self : LibGoClient) (m : http_method) (url : string)
    (body : option pyval) : M response :=
  fun tr =>
    let rq := mkRequest m url (headers self) body DEFAULT_TIMEOUT in
    match net tr rq with
    | NetRaise cls msg => (Err (PyExc cls msg), (tr ++ [EvHttp rq])%list)
    | NetResp r => (Ok r, (tr ++ [EvHttp rq])%list)
    end.

Definition failure (r : response) : pyval :=
  PyDict [("error", PyStr (text r)); ("status_code", PyInt (status_code r))].

Definition fault (e : string) : pyval := PyDict [("error", PyStr e)].

Definition check_health (self : LibGoClient) : M bool :=
  try_except
    (response <- send self GET (remove_all "/api/v1" (base_url self) ++ "/health") None ;;
     ret (status_code response =? 200))
    (fun e => print ("Health check failed: " ++ e) ;; ret false).

Definition create_vm (self : LibGoClient) (vm_config : pyval) : M (bool * pyval) :=
  try_except
    (response <- send self POST (base_url self ++ "/vms") (Some vm_config) ;;
     if status_code response =? 201
     then (body <- response_json response ;; ret (true, body))
     else ret (false, failure response))
    (fun e => ret (false, fault e)).

Definition start_vm (self : LibGoClient) (vm_name : string) : M (bool * pyval) :=
  try_except
    (response <- send self PUT (base_url self ++ "/vms/" ++ vm_name ++ "/start") None ;;
     if status_code response =? 200
     then (body <- response_json response ;; ret (true, body))
     else ret (false, failure response))
    (fun e => ret (false, fault e)).

Definition get_vm (self : LibGoClient) (vm_name : string) : M (bool * pyval) :=
  try_except
    (response <- send self GET (base_url self ++ "/vms/" ++ vm_name) None ;;
     if status_code response =? 200
     then (body <- response_json response ;; ret (true, body))
     else ret (false, failure response))
    (fun e => ret (false, fault e)).

Definition list_vms (self : LibGoClient) : M (bool * pyval) :=
  try_except
    (response <- send self GET (base_url self ++ "/vms") None ;;
     if status_code response =? 200
     then (data <- response_json response ;;
           vms <- method_get data "vms" (PyList []) ;;
           ret (true, vms))
     else ret (false, PyList []))
    (fun e => print ("List VMs failed: " ++ e) ;; ret (false, PyList [])).

Definition create_snapshot (self : LibGoClient) (vm_name snapshot_name : string)
    (description : pyval) (include_memory : bool) : M (bool * pyval) :=
  let snapshot_config :=
    PyDict [("name", PyStr snapshot_name);
            ("description", description);
            ("include_memory", PyBool include_memory)] in
  try_except
    (response <- send self POST (base_url self ++ "/vms/" ++ vm_name ++ "/snapshots")
                   (Some snapshot_config) ;;
     if status_code response =? 201
     then (body <- response_json response ;; ret (true, body))
     else ret (false, failure response))
    (fun e => ret (false, fault e)).

Definition delete_vm (self : LibGoClient) (vm_name : string) : M (bool * pyval) :=
  try_except
    (response <- send self DELETE (base_url self ++ "/vms/" ++ vm_name) None ;;
     if (status_code response =? 200) || (status_code response =? 204)
     then ret (true, PyDict [("message", PyStr "VM deleted successfully")])
     else ret (false, failure response))
    (fun e => ret (false, fault e)).

(** *** create_windows_vm *)

(** [VM_TEMPLATES[template_type]] *)
Definition template_of (template_type : pyval) : M dict :=
  match template_type with
  | PyStr s =>
      match Dict.get s VM_TEMPLATES with
      | Some t => ret t
      | None => raise (PyExc "KeyError" ("'" ++ s ++ "'"))
      end
  | PyList _ | PyDict _ =>
      raise (PyExc "TypeError" ("unhashable type: '" ++ type_name template_type ++ "'"))
  | _ => raise (PyExc "KeyError" (py_str template_type))
  end.

(** The dictionary display bound to [vm_config]. *)
Definition vm_config_of (name template_type description : pyval) (template : dict)
    : pyval :=
  PyDict (Dict.of_items
    ([("name", name);
      ("description",
        py_or description (PyStr ("Windows VM - " ++ py_str template_type)))]
     ++ template ++
     [("network", PyDict [("type", PyStr "network");
                          ("source", PyStr "default");
                          ("model", PyStr "virtio")]);
      ("cloudInit", PyDict [("enabled", PyBool false)])])%list).

Definition create_windows_vm (client : LibGoClient)
    (name template_type description : pyval) : M bool :=
  known <- key_in template_type VM_TEMPLATES ;;
  if negb known then
    print ("Unknown template type: " ++ py_str template_type) ;;
    print ("Available templates: " ++ join ", " (Dict.keys VM_TEMPLATES)) ;;
    ret false
  else
    template <- template_of template_type ;;
    let vm_config := vm_config_of name template_type description template in
    print (nl ++ "Creating VM: " ++ py_str name) ;;
    print ("Template: " ++ py_str template_type) ;;
    cpu <- subscript (PyDict template) "cpu" ;;
    count <- subscript cpu "count" ;;
    print ("CPU: " ++ py_str count ++ " cores") ;;
    memory <- subscript (PyDict template) "memory" ;;
    mem_bytes <- subscript memory "sizeBytes" ;;
    mem_z <- dividend mem_bytes ;;
    print ("Memory: " ++ format_gib 0 mem_z ++ " GB") ;;
    disk <- subscript (PyDict template) "disk" ;;
    disk_bytes <- subscript disk "sizeBytes" ;;
    disk_z <- dividend disk_bytes ;;
    print ("Disk: " ++ format_gib 0 disk_z ++ " GB") ;;
    r <- create_vm client vm_config ;;
    let (success, result) := r in
    if success then
      vm <- method_get result "vm" (PyDict []) ;;
      print "✓ VM created successfully!" ;;
      uuid <- method_get vm "uuid" PyNone ;;
      print ("  UUID: " ++ py_str uuid) ;;
      status <- method_get vm "status" PyNone ;;
      print ("  Status: " ++ py_str status) ;;
      ret true
    else
      print ("✗ Failed to create VM: " ++ py_str result) ;;
      ret false.

(** *** main *)

Inductive command : Type :=
| Create (name template : string) (description : option string) (start : bool)
| CreateMultiple (config_file : option string)
| ListVms
| Delete (name : string)
| Start (name : string)
| Snapshot (vm_name snapshot_name : string) (description : option string)
    (include_memory : bool)
| NoCommand.

(** The namespace [parser.parse_args()] returns. *)
Record arguments : Type := mkArgs {
  api_url : string;
  token : option string;
  cmd : command }.

(** The default set of VMs: name, template, description. *)
Definition default_vms : list (string * string * string) :=
  [ ("win11-workstation", "windows-11-basic", "Windows 11 Workstation");
    ("win11-dev", "windows-11-developer", "Windows 11 Development");
    ("winserver-web", "windows-server-web", "Windows Server - Web Server");
    ("winserver-db", "windows-server-database", "Windows Server - Database") ].

(** [with open(path, 'r') as f: configs = json.load(f)] *)
Definition load_configs (path : string) : M pyval :=
  match fs path with
  | OpenRaises cls msg => raise (PyExc cls msg)
  | LoadRaises cls msg => raise (PyExc cls msg)
  | Loaded v => ret v
  end.

(** The body of the loop over the configurations of a file. *)
Definition create_from_config (client : LibGoClient) (config : pyval) : M unit :=
  name <- subscript config "name" ;;
  template <- subscript config "template" ;;
  description <- method_get config "description" (PyStr "") ;;
  create_windows_vm client name template description ;;
  sleep 2.

(** The body of the loop over the default set. *)
Definition create_default (client : LibGoClient) (vm : string * string * string)
    : M unit :=
  let '(name, template, description) := vm in
  create_windows_vm client (PyStr name) (PyStr template) (PyStr description) ;;
  sleep 2.

Definition create_multiple (client : LibGoClient) (config_file : option string)
    : M unit :=
  if truthy (of_opt config_file) then
    configs <- load_configs (match config_file with Some p => p | None => "" end) ;;
    items <- iterate configs ;;
    for_each items (create_from_config client)
  else
    for_each default_vms (create_default client).

Definition dashes : string := repeat_char "-" 80.

Definition print_vm (vm : pyval) : M unit :=
  name <- subscript vm "name" ;;
  print ("Name: " ++ py_str name) ;;
  status <- subscript vm "status" ;;
  print ("  Status: " ++ py_str status) ;;
  cpu <- subscript vm "cpu" ;;
  count <- subscript cpu "count" ;;
  print ("  CPU: " ++ py_str count ++ " cores") ;;
  memory <- subscript vm "memory" ;;
  size_bytes <- subscript memory "size_bytes" ;;
  size_z <- dividend size_bytes ;;
  print ("  Memory: " ++ format_gib 1 size_z ++ " GB") ;;
  created <- subscript vm "created_at" ;;
  print ("  Created: " ++ py_str created) ;;
  print dashes.

Definition execute (client : LibGoClient) (c : command) : M unit :=
  match c with
  | Create name template description start =>
      success <- create_windows_vm client (PyStr name) (PyStr template)
                   (of_opt description) ;;
      if success && start then
        print (nl ++ "Starting VM: " ++ name) ;;
        r <- start_vm client name ;;
        let (success, result) := r in
        if success then print "✓ VM started successfully!"
        else print ("✗ Failed to start VM: " ++ py_str result)
      else ret tt
  | CreateMultiple config_file => create_multiple client config_file
  | ListVms =>
      r <- list_vms client ;;
      let (success, vms) := r in
      if success then
        if truthy vms then
          n <- py_len vms ;;
          print (nl ++ "Found " ++ string_of_Z n ++ " VMs:") ;;
          print dashes ;;
          items <- iterate vms ;;
          for_each items print_vm
        else print "No VMs found."
      else print "Failed to list VMs"
  | Delete name =>
      print ("Deleting VM: " ++ name) ;;
      r <- delete_vm client name ;;
      let (success, result) := r in
      if success then print "✓ VM deleted successfully!"
      else print ("✗ Failed to delete VM: " ++ py_str result)
  | Start name =>
      print ("Starting VM: " ++ name) ;;
      r <- start_vm client name ;;
      let (success, result) := r in
      if success then print "✓ VM started successfully!"
      else print ("✗ Failed to start VM: " ++ py_str result)
  | Snapshot vm_name snapshot_name description include_memory =>
      print ("Creating snapshot for VM: " ++ vm_name) ;;
      r <- create_snapshot client vm_name snapshot_name
             (py_or (of_opt description) (PyStr ("Snapshot of " ++ vm_name)))
             include_memory ;;
      let (success, result) := r in
      if success then
        snapshot <- method_get result "snapshot" (PyDict []) ;;
        print "✓ Snapshot created successfully!" ;;
        name <- method_get snapshot "name" PyNone ;;
        print ("  Name: " ++ py_str name) ;;
        created <- method_get snapshot "created_at" PyNone ;;
        print ("  Created: " ++ py_str created)
      else print ("✗ Failed to create snapshot: " ++ py_str result)
  | NoCommand => print help_text
  end.

(** [main], from the parsed arguments on. *)
Definition main (args : arguments) : M unit :=
  let client := new_client (api_url args) (token args) in
  healthy <- check_health client ;;
  (if negb healthy then
     print "Error: API is not responding. Please check if LibGo server is running." ;;
     sys_exit 1
   else ret tt) ;;
  execute client (cmd args).

(** ** Observations on values and traces *)

(** A field of a dictionary value. *)
Definition field (k : string) (v : pyval) : option pyval :=
  match v with
  | PyDict d => Dict.get k d
  | _ => None
  end.

(** An integer field of the [cpu] block of a template. *)
Definition cpu_field (k : string) (template : dict) : option Z :=
  match Dict.get "cpu" template with
  | Some cpu => match field k cpu with Some (PyInt z) => Some z | _ => None end
  | None => None
  end.

(** The control plane calls of a trace, oldest first. *)
Fixpoint http_requests (tr : trace) : list request :=
  match tr with
  | [] => []
  | EvHttp rq :: tr' => rq :: http_requests tr'
  | _ :: tr' => http_requests tr'
  end.

(** The request [create_vm] sends. *)
Definition create_request (client : LibGoClient) (vm_config : pyval) : request :=
  mkRequest POST (base_url client ++ "/vms") (headers client) (Some vm_config)
    DEFAULT_TIMEOUT.


(** The outcome of [create_vm] as a function of the round trip. *)
Definition created (nr : net_result) : bool * pyval :=
  match nr with
  | NetRaise _ msg => (false, fault msg)
  | NetResp r =>
      if status_code r =? 201 then
        match json r with
        | inr body => (true, body)
        | inl msg => (false, fault msg)
        end
      else (false, failure r)
  end.

(** ** Vocabulary of the properties *)

Definition cpu_consistent (template : dict) : Prop :=
  exists count cores threads socket,
    cpu_field "count" template = Some count /\
    cpu_field "cores" template = Some cores /\
    cpu_field "threads" template = Some threads /\
    cpu_field "socket" template = Some socket /\
    0 < count /\ 0 < cores /\ 0 < threads /\ 0 < socket /\
    count = cores * threads * socket.



Definition available_line : string :=
  "Available templates: windows-11-basic, windows-11-developer, "
  ++ "windows-server-web, windows-server-database".

Definition list_request (c : LibGoClient) : request :=
  mkRequest GET (base_url c ++ "/vms") (headers c) None DEFAULT_TIMEOUT.

(** The operations that return a dictionary. *)
Inductive operation : Type :=
| CreateVm (vm_config : pyval)
| StartVm (vm_name : string)
| GetVm (vm_name : string)
| CreateSnapshot (vm_name snapshot_name : string) (description : pyval)
    (include_memory : bool)
| DeleteVm (vm_name : string).

Definition perform (c : LibGoClient) (op : operation) : M (bool * pyval) :=
  match op with
  | CreateVm vm_config => create_vm c vm_config
  | StartVm vm_name => start_vm c vm_name
  | GetVm vm_name => get_vm c vm_name
  | CreateSnapshot vm_name snapshot_name description include_memory =>
      create_snapshot c vm_name snapshot_name description include_memory
  | DeleteVm vm_name => delete_vm c vm_name
  end.

(** The status codes an operation takes as success. *)
Definition accepts (op : operation) (status : Z) : bool :=
  match op with
  | CreateVm _ | CreateSnapshot _ _ _ _ => status =? 201
  | StartVm _ | GetVm _ => status =? 200
  | DeleteVm _ => (status =? 200) || (status =? 204)
  end.



Definition health_request (c : LibGoClient) : request :=
  mkRequest GET (remove_all "/api/v1" (base_url c) ++ "/health") (headers c) None
    DEFAULT_TIMEOUT.

Definition snapshot_request (c : LibGoClient) (vm_name snapshot_name : string)
    (description : string) (include_memory : bool) : request :=
  mkRequest POST (base_url c ++ "/vms/" ++ vm_name ++ "/snapshots") (headers c)
    (Some (PyDict [("name", PyStr snapshot_name);
                   ("description", PyStr description);
                   ("include_memory", PyBool include_memory)]))
    DEFAULT_TIMEOUT.

Definition fatal_line : string :=
  "Error: API is not responding. Please check if LibGo server is running.".

(** The key whose lookup fails first in an element of a configuration file. *)
Definition missing_key (d : dict) : option string :=
  match Dict.get "name" d with
  | None => Some "name"
  | Some _ =>
      match Dict.get "template" d with
      | None => Some "template"
      | Some _ => None
      end
  end.










(** ** Sample environments *)

(** Stand-ins for Python's formatting of containers and of sizes in GiB. *)
Definition repr_stub (v : pyval) : string := "<" ++ type_name v ++ ">".
Definition gib_text (digits : nat) (bytes : Z) : string := string_of_Z (bytes / GiB).

Definition demo_client : LibGoClient := new_client API_BASE_URL None.

Definition vm_created : response :=
  mkResponse 201 "{...}"
    (inr (PyDict [("vm", PyDict [("uuid", PyStr "7c9e"); ("status", PyStr "created")])])).

Definition snapshot_created : response :=
  mkResponse 201 "{...}"
    (inr (PyDict [("snapshot", PyDict [("name", PyStr "s1");
                                       ("created_at", PyStr "2024-01-01")])])).

Definition two_vms : dict :=
  [("vms", PyList [PyDict [("name", PyStr "a")]; PyDict [("name", PyStr "b")]])].

(** A control plane that answers every call with success. *)
Definition server_up (tr : trace) (rq : request) : net_result :=
  match rq_method rq with
  | POST =>
      if String.eqb (rq_url rq) (base_url demo_client ++ "/vms")
      then NetResp vm_created else NetResp snapshot_created
  | _ => NetResp (mkResponse 200 "{...}" (inr (PyDict two_vms)))
  end.

(** A control plane that cannot be reached. *)
Definition server_down (tr : trace) (rq : request) : net_result :=
  NetRaise "ConnectionError" "connection refused".

(** A control plane that is healthy and answers 500 to everything else. *)
Definition server_error (tr : trace) (rq : request) : net_result :=
  if String.eqb (rq_url rq) "http://localhost:8080/health"
  then NetResp (mkResponse 200 "ok" (inl "not JSON"))
  else NetResp (mkResponse 500 "internal error" (inl "not JSON")).

(** As [server_up], but the creation of the VM named ["win-b"] is refused. *)
Definition server_rigged (tr : trace) (rq : request) : net_result :=
  match rq_json rq with
  | Some cfg =>
      match field "name" cfg with
      | Some (PyStr "win-b") => NetResp (mkResponse 500 "rigged" (inl "not JSON"))
      | _ => NetResp vm_created
      end
  | None => NetResp (mkResponse 200 "{...}" (inr (PyDict [])))
  end.

Definition three_configs : list pyval :=
  [ PyDict [("name", PyStr "win-a"); ("template", PyStr "windows-11-basic")];
    PyDict [("name", PyStr "win-b"); ("template", PyStr "windows-server-web");
            ("description", PyStr "second")];
    PyDict [("name", PyStr "win-c"); ("template", PyStr "windows-11-developer")] ].


(** A file system with one batch file and one file with an element that has
    no name. *)
Definition demo_fs (path : string) : file_result :=
  if String.eqb path "batch.json" then Loaded (PyList three_configs)
  else if String.eqb path "broken.json" then
    Loaded (PyList [PyDict [("template", PyStr "windows-11-basic")]])
  else OpenRaises "FileNotFoundError"
         ("[Errno 2] No such file or directory: '" ++ path ++ "'").

(** The names of the VMs whose creation was requested, in order. *)
Definition requested_names (tr : trace) : list (option pyval) :=
  map (fun rq => match rq_json rq with Some cfg => field "name" cfg | None => None end)
    (filter (fun rq => match rq_method rq with POST => true | _ => false end)
       (http_requests tr)).

Definition basic_template : dict :=
  [ ("template", PyStr "windows-11");
    ("cpu", PyDict [("count", PyInt 4); ("cores", PyInt 2);
                    ("threads", PyInt 1); ("socket", PyInt 2)]);
    ("memory", PyDict [("sizeBytes", PyInt 8589934592)]);
    ("disk", PyDict [("sizeBytes", PyInt 107374182400);
                     ("format", PyStr "qcow2"); ("bus", PyStr "sata")]) ].

(** ** Vocabulary of the further properties *)

(** [behaves P m]: [m] only appends to the trace, every event it appends
    satisfies [P], and it does not end in [SystemExit]. *)
Definition behaves (P : event -> Prop) {A} (m : M A) : Prop :=
  forall tr, exists ext,
    snd (m tr) = (tr ++ ext)%list /\ Forall P ext /\
    forall code, fst (m tr) <> Err (SystemExit code).

(** [m] leaves the trace alone and does not end in [SystemExit]. *)
Definition silent {A} (m : M A) : Prop :=
  forall tr, snd (m tr) = tr /\ forall code, fst (m tr) <> Err (SystemExit code).

Definition start_request (c : LibGoClient) (vm_name : string) : request :=
  mkRequest PUT (base_url c ++ "/vms/" ++ vm_name ++ "/start") (headers c) None
    DEFAULT_TIMEOUT.

Definition get_request (c : LibGoClient) (vm_name : string) : request :=
  mkRequest GET (base_url c ++ "/vms/" ++ vm_name) (headers c) None DEFAULT_TIMEOUT.

Definition delete_request (c : LibGoClient) (vm_name : string) : request :=
  mkRequest DELETE (base_url c ++ "/vms/" ++ vm_name) (headers c) None DEFAULT_TIMEOUT.

(** The requests a command may send once the health check has passed. *)
Definition may_request (c : LibGoClient) (command : command) (rq : request) : Prop :=
  match command with
  | Create name _ _ start =>
      (exists cfg, rq = create_request c cfg) \/
      (start = true /\ rq = start_request c name)
  | CreateMultiple _ => exists cfg, rq = create_request c cfg
  | ListVms => rq = list_request c
  | Delete name => rq = delete_request c name
  | Start name => rq = start_request c name
  | Snapshot vm_name snapshot_name _ include_memory =>
      exists sent, rq = snapshot_request c vm_name snapshot_name sent include_memory
  | NoCommand => False
  end.

(** An event is a print, a pause, or a request that satisfies [Q]. *)
Definition requests_are (Q : request -> Prop) (e : event) : Prop :=
  match e with
  | EvHttp rq => Q rq
  | _ => True
  end.


(** The request an operation sends. *)
Definition request_of (c : LibGoClient) (op : operation) : request :=
  match op with
  | CreateVm vm_config => create_request c vm_config
  | StartVm vm_name => start_request c vm_name
  | GetVm vm_name => get_request c vm_name
  | CreateSnapshot vm_name snapshot_name description include_memory =>
      mkRequest POST (base_url c ++ "/vms/" ++ vm_name ++ "/snapshots") (headers c)
        (Some (PyDict [("name", PyStr snapshot_name);
                       ("description", description);
                       ("include_memory", PyBool include_memory)]))
        DEFAULT_TIMEOUT
  | DeleteVm vm_name => delete_request c vm_name
  end.

(** What a successful operation returns for a response. *)
Definition success_value (op : operation) (r : response) (result : pyval) : Prop :=
  match op with
  | DeleteVm _ => result = PyDict [("message", PyStr "VM deleted successfully")]
  | _ => json r = inr result
  end.

(** The message [list_vms] prints for a 200 response it cannot use. *)
Definition body_error (r : response) : option string :=
  match json r with
  | inl msg => Some msg
  | inr (PyDict _) => None
  | inr body => Some ("'" ++ type_name body ++ "' object has no attribute 'get'")
  end.

(** The keys of the request [create_windows_vm] builds, in order. *)
Definition vm_config_keys : list string :=
  ["name"; "description"; "template"; "cpu"; "memory"; "disk"; "network"; "cloudInit"].







(** ** More sample environments *)


(** A control plane that answers every call with 200 and a JSON array. *)
Definition server_list_array (tr : trace) (rq : request) : net_result :=
  NetResp (mkResponse 200 "[]" (inr (PyList []))).





(** A file system whose files all hold a JSON object. *)
Definition object_fs (path : string) : file_result :=
  Loaded (PyDict [("name", PyStr "x")]).




(** ** The batch as the specification describes it *)








(** * Properties *)

(** ** Template catalog *)

(** C9.  Every entry of the template catalog has positive integers for the
    cpu fields count, cores, threads and socket, and its count is the
    product of the other three.  The catalog is a constant: no operation of
    the script takes it as an argument or yields a new one. *)
Theorem catalog_cpu_consistent :
  Forall (fun entry => cpu_consistent (snd entry)) VM_TEMPLATES.
Proof.
  unfold VM_TEMPLATES.
  repeat constructor; cbn [snd]; unfold cpu_consistent, cpu_field.
  - exists 4, 2, 1, 2. cbn. repeat split; reflexivity.
  - exists 8, 4, 1, 2. cbn. repeat split; reflexivity.
  - exists 4, 2, 1, 2. cbn. repeat split; reflexivity.
  - exists 8, 4, 1, 2. cbn. repeat split; reflexivity.
Qed.

(** The catalog has exactly these four entries. *)
Lemma catalog_lookup (s : string) (t : dict) :
  Dict.get s VM_TEMPLATES = Some t ->
  In (s, t) VM_TEMPLATES.
Proof using Type.
  unfold VM_TEMPLATES. cbn [Dict.get].
  repeat match goal with
         | |- context [String.eqb s ?k] => destruct (String.eqb_spec s k)
         end; intros H; try discriminate; injection H as <-; subst s; cbn; auto 6.
Qed.

Lemma http_requests_app (a b : trace) :
  http_requests (a ++ b)%list = (http_requests a ++ http_requests b)%list.
Proof.
  induction a as [|[rq|line|secs] a IH]; cbn; rewrite ?IH; reflexivity.
Qed.




Lemma http_requests_prints (lines : list string) :
  http_requests (map EvPrint lines) = [].
Proof. induction lines; cbn; auto. Qed.


(** ** Request builder *)







(** ** Client *)

(** C7.  On a 200 response whose body is a JSON object, [list_vms] returns
    [True] with the value of the field ["vms"] when the object has it, and
    with the empty list when it has not. *)
Theorem list_extraction (c : LibGoClient) (tr : trace) (r : response) (d : dict) :
  net tr (list_request c) = NetResp r ->
  status_code r = 200 ->
  json r = inr (PyDict d) ->
  list_vms c tr =
  (Ok (true, match Dict.get "vms" d with Some vms => vms | None => PyList [] end),
   (tr ++ [EvHttp (list_request c)])%list).
Proof.
  intros Hnet Hstatus Hjson.
  unfold list_vms, try_except, bind, send. fold (list_request c).
  rewrite Hnet, Hstatus. cbn [Z.eqb Pos.eqb].
  unfold response_json. rewrite Hjson. cbn.
  destruct (Dict.get "vms" d); reflexivity.
Qed.


(** ** Workflow *)

Lemma check_health_run (c : LibGoClient) (tr : trace) :
  exists healthy lines,
    check_health c tr =
    (Ok healthy, (tr ++ EvHttp (health_request c) :: map EvPrint lines)%list).
Proof.
  unfold check_health, try_except, bind, send, print, emit, ret.
  fold (health_request c).
  destruct (net tr (health_request c)) as [cls msg|r].
  - eexists _, [_]. rewrite <- app_assoc. reflexivity.
  - eexists _, []. reflexivity.
Qed.

Lemma main_healthy (args : arguments) (tr tr1 : trace) :
  check_health (new_client (api_url args) (token args)) tr = (Ok true, tr1) ->
  main args tr = execute (new_client (api_url args) (token args)) (cmd args) tr1.
Proof.
  intros H. unfold main, bind at 1. rewrite H. reflexivity.
Qed.

(** C1.  When [check_health] returns [False], [main] prints the fatal line
    and ends in [sys.exit(1)]: the trace has no request after the one of
    the health check. *)
Theorem health_gate (args : arguments) (tr tr1 : trace) :
  let c := new_client (api_url args) (token args) in
  check_health c tr = (Ok false, tr1) ->
  main args tr = (Err (SystemExit 1), (tr1 ++ [EvPrint fatal_line])%list) /\
  http_requests (tr1 ++ [EvPrint fatal_line])%list =
  (http_requests tr ++ [health_request c])%list /\
  1 <> 0.
Proof.
  intros c H. split; [|split; [|discriminate]].
  - unfold main. fold c. unfold bind at 1. rewrite H. reflexivity.
  - destruct (check_health_run c tr) as (healthy & lines & Hrun).
    rewrite Hrun in H. injection H as _ <-.
    rewrite <- app_assoc, !http_requests_app. cbn [app http_requests].
    rewrite http_requests_prints. reflexivity.
Qed.


Lemma for_each_app {A} (xs ys : list A) (body : A -> M unit) (tr : trace) :
  for_each (xs ++ ys)%list body tr =
  match for_each xs body tr with
  | (Ok _, tr') => for_each ys body tr'
  | (Err e, tr') => (Err e, tr')
  end.
Proof.
  revert tr. induction xs as [|x xs IH]; intros tr; cbn [for_each app].
  - reflexivity.
  - unfold bind. destruct (body x tr) as [[[]|e] tr0]; [apply IH|reflexivity].
Qed.

Lemma create_multiple_file (c : LibGoClient) (path : string) (tr : trace) :
  path <> "" ->
  create_multiple c (Some path) tr =
  (configs <- load_configs path ;;
   items <- iterate configs ;;
   for_each items (create_from_config c)) tr.
Proof.
  intros H. unfold create_multiple. cbn [of_opt truthy].
  destruct (String.eqb_spec path ""); [contradiction|reflexivity].
Qed.

(** C8, as the code has it.  [main] has no handler around the loading of
    the configuration file.  When the file cannot be opened or is not JSON
    the exception leaves [main] right after the health check, with no
    request sent and nothing printed; when an element lacks ["name"] or
    ["template"] the elements before it are processed and then the
    [KeyError] leaves [main]. *)
Theorem malformed_config_raises (args : arguments) (path : string)
    (tr tr1 : trace) :
  let c := new_client (api_url args) (token args) in
  cmd args = CreateMultiple (Some path) ->
  path <> "" ->
  check_health c tr = (Ok true, tr1) ->
  (forall cls msg,
      fs path = OpenRaises cls msg \/ fs path = LoadRaises cls msg ->
      main args tr = (Err (PyExc cls msg), tr1)) /\
  (forall before d rest key,
      fs path = Loaded (PyList (before ++ PyDict d :: rest)) ->
      missing_key d = Some key ->
      main args tr =
      match for_each before (create_from_config c) tr1 with
      | (Ok _, tr2) => (Err (PyExc "KeyError" ("'" ++ key ++ "'")), tr2)
      | (Err e, tr2) => (Err e, tr2)
      end).
Proof.
  intros c Hcmd Hpath Hhealth.
  rewrite (main_healthy args tr tr1 Hhealth). fold c. rewrite Hcmd.
  cbn [execute]. rewrite (create_multiple_file c path tr1 Hpath).
  unfold bind at 1, load_configs. split.
  - intros cls msg [H|H]; rewrite H; reflexivity.
  - intros before d rest key H Hkey. rewrite H.
    unfold bind, iterate, ret. cbv beta iota.
    rewrite for_each_app.
    destruct (for_each before (create_from_config c) tr1) as [[[]|e] tr2];
      [|reflexivity].
    cbn [for_each]. unfold create_from_config, bind, subscript, raise.
    unfold missing_key in Hkey.
    destruct (Dict.get "name" d) as [name|].
    + destruct (Dict.get "template" d) as [template|]; [discriminate|].
      injection Hkey as <-. reflexivity.
    + injection Hkey as <-. reflexivity.
Qed.

(** *** Batches *)




(** * Further properties *)

(** ** How computations extend the trace *)

Lemma silent_behaves {A} (P : event -> Prop) (m : M A) :
  silent m -> behaves P m.
Proof.
  intros H tr. destruct (H tr) as [Htr Hexit].
  exists []. rewrite app_nil_r. auto.
Qed.

Lemma behaves_ret {A} (P : event -> Prop) (a : A) : behaves P (ret a).
Proof. intros tr. exists []. cbn. rewrite app_nil_r. repeat split; auto; discriminate. Qed.

Lemma behaves_raise {A} (P : event -> Prop) (cls msg : string) :
  behaves P (@raise A (PyExc cls msg)).
Proof. intros tr. exists []. cbn. rewrite app_nil_r. repeat split; auto; discriminate. Qed.

Lemma behaves_emit (P : event -> Prop) (e : event) : P e -> behaves P (emit e).
Proof. intros H tr. exists [e]. cbn. repeat split; auto; discriminate. Qed.

Lemma behaves_bind {A B} (P : event -> Prop) (m : M A) (k : A -> M B) :
  behaves P m -> (forall a, behaves P (k a)) -> behaves P (bind m k).
Proof.
  intros Hm Hk tr. unfold bind.
  destruct (Hm tr) as (e1 & H1 & F1 & X1).
  destruct (m tr) as [[a|e] tr1]; cbn [fst snd] in *.
  - subst tr1. destruct (Hk a (tr ++ e1)%list) as (e2 & H2 & F2 & X2).
    exists (e1 ++ e2)%list. rewrite H2, app_assoc.
    split; [reflexivity|]. split; [apply Forall_app; auto|exact X2].
  - exists e1. split; [assumption|split; [assumption|]].
    intros code H. injection H as ->. exact (X1 code eq_refl).
Qed.

Lemma behaves_try {A} (P : event -> Prop) (body : M A) (handler : string -> M A) :
  behaves P body -> (forall msg, behaves P (handler msg)) ->
  behaves P (try_except body handler).
Proof.
  intros Hb Hh tr. unfold try_except.
  destruct (Hb tr) as (e1 & H1 & F1 & X1).
  destruct (body tr) as [[a|[code|cls msg]] tr1]; cbn [fst snd] in *.
  - exists e1. split; [assumption|split; assumption].
  - exfalso. exact (X1 code eq_refl).
  - subst tr1. destruct (Hh msg (tr ++ e1)%list) as (e2 & H2 & F2 & X2).
    exists (e1 ++ e2)%list. rewrite H2, app_assoc.
    split; [reflexivity|]. split; [apply Forall_app; auto|exact X2].
Qed.

Lemma behaves_for_each {A} (P : event -> Prop) (xs : list A) (body : A -> M unit) :
  (forall x, behaves P (body x)) -> behaves P (for_each xs body).
Proof.
  intros Hbody. induction xs as [|x xs IH]; cbn [for_each].
  - apply behaves_ret.
  - apply behaves_bind; auto.
Qed.

Lemma behaves_send (P : event -> Prop) (c : LibGoClient) (m : http_method)
    (url : string) (body : option pyval) :
  P (EvHttp (mkRequest m url (headers c) body DEFAULT_TIMEOUT)) ->
  behaves P (send c m url body).
Proof.
  intros H tr. unfold send.
  exists [EvHttp (mkRequest m url (headers c) body DEFAULT_TIMEOUT)].
  destruct (net tr _); cbn; repeat split; auto; discriminate.
Qed.

Lemma silent_subscript (v : pyval) (k : string) : silent (subscript v k).
Proof.
  intros tr. destruct v as [| | | | |d]; cbn; try (split; [reflexivity|discriminate]).
  destruct (Dict.get k d); cbn; split; try reflexivity; discriminate.
Qed.

Lemma silent_method_get (v : pyval) (k : string) (default : pyval) :
  silent (method_get v k default).
Proof.
  intros tr. destruct v as [| | | | |d]; cbn; try (split; [reflexivity|discriminate]).
  destruct (Dict.get k d); cbn; split; try reflexivity; discriminate.
Qed.

Lemma silent_iterate (v : pyval) : silent (iterate v).
Proof. intros tr. destruct v; cbn; split; try reflexivity; discriminate. Qed.

Lemma silent_py_len (v : pyval) : silent (py_len v).
Proof. intros tr. destruct v; cbn; split; try reflexivity; discriminate. Qed.

Lemma silent_key_in {A} (v : pyval) (d : list (string * A)) : silent (key_in v d).
Proof. intros tr. destruct v; cbn; split; try reflexivity; discriminate. Qed.

Lemma silent_dividend (v : pyval) : silent (dividend v).
Proof.
  intros tr. destruct v as [| |z| | |]; cbn; try (split; [reflexivity|discriminate]).
  destruct (fits_float z); cbn; split; try reflexivity; discriminate.
Qed.

Lemma silent_response_json (r : response) : silent (response_json r).
Proof.
  intros tr. unfold response_json. destruct (json r); cbn; split;
    try reflexivity; discriminate.
Qed.

Lemma silent_template_of (v : pyval) : silent (template_of v).
Proof.
  intros tr. destruct v as [| | |s| |]; unfold template_of;
    try (cbn; split; [reflexivity|discriminate]).
  destruct (Dict.get s VM_TEMPLATES); cbn; split; try reflexivity; discriminate.
Qed.

Lemma silent_load_configs (path : string) : silent (load_configs path).
Proof.
  intros tr. unfold load_configs. destruct (fs path); cbn; split;
    try reflexivity; discriminate.
Qed.

Ltac behaves_step :=
  match goal with
  | |- behaves _ (bind _ _) => apply behaves_bind; [|intros ?]
  | |- behaves _ (try_except _ _) => apply behaves_try; [|intros ?]
  | |- behaves _ (ret _) => apply behaves_ret
  | |- behaves _ (raise (PyExc _ _)) => apply behaves_raise
  | |- behaves _ (print _) => unfold print; apply behaves_emit
  | |- behaves _ (sleep _) => unfold sleep; apply behaves_emit
  | |- behaves _ (for_each _ _) => apply behaves_for_each; intros ?
  | |- behaves _ (send _ _ _ _) => apply behaves_send
  | |- behaves _ (subscript _ _) => apply silent_behaves, silent_subscript
  | |- behaves _ (method_get _ _ _) => apply silent_behaves, silent_method_get
  | |- behaves _ (iterate _) => apply silent_behaves, silent_iterate
  | |- behaves _ (py_len _) => apply silent_behaves, silent_py_len
  | |- behaves _ (key_in _ _) => apply silent_behaves, silent_key_in
  | |- behaves _ (dividend _) => apply silent_behaves, silent_dividend
  | |- behaves _ (response_json _) => apply silent_behaves, silent_response_json
  | |- behaves _ (template_of _) => apply silent_behaves, silent_template_of
  | |- behaves _ (load_configs _) => apply silent_behaves, silent_load_configs
  | |- behaves _ (match ?x with _ => _ end) => destruct x
  end.

(** [create_windows_vm] prints and sends creation requests, nothing else. *)
Lemma create_windows_vm_behaves (P : event -> Prop) (c : LibGoClient)
    (name template_type description : pyval) :
  (forall line, P (EvPrint line)) ->
  (forall cfg, P (EvHttp (create_request c cfg))) ->
  behaves P (create_windows_vm c name template_type description).
Proof.
  intros Hprint Hreq. unfold create_windows_vm, create_vm.
  repeat behaves_step; try apply Hprint; apply Hreq.
Qed.

Lemma py_or_of_opt (o : option string) (fallback : string) :
  exists sent, py_or (of_opt o) (PyStr fallback) = PyStr sent.
Proof.
  destruct o as [d|]; unfold py_or; cbn [of_opt].
  - destruct (truthy (PyStr d)); eauto.
  - cbn. eauto.
Qed.

(** After the health check a command sends only the requests that
    [may_request] lists for it, and does not end in [SystemExit]. *)
Lemma execute_behaves (c : LibGoClient) (command : command) :
  behaves (requests_are (may_request c command)) (execute c command).
Proof.
  destruct command as [name template description start|config_file| |name|name
                      |vm_name snapshot_name description include_memory|];
    cbn [execute].
  - apply behaves_bind.
    + apply create_windows_vm_behaves; intros; cbn; [exact I|left; eauto].
    + intros success. unfold start_vm.
      destruct start; rewrite ?andb_false_r; [|apply behaves_ret].
      repeat behaves_step; try exact I.
      cbn. right. split; reflexivity.
  - unfold create_multiple, create_from_config, create_default.
    repeat behaves_step; try exact I;
      apply create_windows_vm_behaves; intros; cbn; eauto.
  - unfold list_vms, print_vm. repeat behaves_step; try exact I. reflexivity.
  - unfold delete_vm. repeat behaves_step; try exact I. reflexivity.
  - unfold start_vm. repeat behaves_step; try exact I. reflexivity.
  - destruct (py_or_of_opt description ("Snapshot of " ++ vm_name)) as [sent ->].
    unfold create_snapshot. repeat behaves_step; try exact I.
    cbn. exists sent. reflexivity.
  - repeat behaves_step. exact I.
Qed.

Lemma prints_satisfy (Q : request -> Prop) (lines : list string) :
  Forall (requests_are Q) (map EvPrint lines).
Proof. induction lines; cbn; constructor; auto. exact I. Qed.

Lemma http_requests_satisfy (Q : request -> Prop) (ext : trace) :
  Forall (requests_are Q) ext -> Forall Q (http_requests ext).
Proof.
  induction 1 as [|[rq|line|secs] ext H _ IH]; cbn; auto.
Qed.

(** The trace of [main]: the health request, then what the command may do. *)
Lemma main_trace (args : arguments) (tr : trace) :
  let c := new_client (api_url args) (token args) in
  exists rest,
    snd (main args tr) = (tr ++ EvHttp (health_request c) :: rest)%list /\
    Forall (requests_are (may_request c (cmd args))) rest.
Proof.
  intros c. unfold main. fold c. unfold bind at 1.
  destruct (check_health_run c tr) as (healthy & lines & ->).
  destruct healthy; cbn [negb].
  - unfold bind at 1, ret at 1.
    destruct (execute_behaves c (cmd args)
                (tr ++ EvHttp (health_request c) :: map EvPrint lines)%list)
      as (ext & Hext & Hall & _).
    exists (map EvPrint lines ++ ext)%list. split.
    + rewrite Hext, <- app_assoc. reflexivity.
    + apply Forall_app. split; [apply prints_satisfy|exact Hall].
  - exists (map EvPrint (lines ++ [fatal_line]))%list. split.
    + rewrite map_app. cbn. rewrite <- app_assoc. reflexivity.
    + apply prints_satisfy.
Qed.


Lemma may_request_method (c : LibGoClient) (command : command) (rq : request) :
  may_request c command rq ->
  (forall name, command <> Delete name) ->
  rq_method rq <> DELETE.
Proof.
  destruct command; cbn [may_request];
    intros H Hcmd; repeat match goal with
                          | H : _ \/ _ |- _ => destruct H
                          | H : _ /\ _ |- _ => destruct H
                          | H : exists _, _ |- _ => destruct H
                          | H : False |- _ => destruct H
                          end; subst; cbn; try discriminate.
  exfalso. eapply Hcmd. reflexivity.
Qed.

(** X1.  Whatever the control plane and the file system answer, the first
    request of [main] is the health check, and every request after it is one
    the command may send: creations (and the start of the named VM under
    [--start]) for [create], creations for [create-multiple], the listing for
    [list], the deletion or start of the named VM for [delete] and [start],
    the snapshot of the named VM for [snapshot], none without a command. *)
Theorem command_requests (args : arguments) (tr : trace) :
  let c := new_client (api_url args) (token args) in
  exists rest,
    http_requests (snd (main args tr)) =
    (http_requests tr ++ health_request c :: rest)%list /\
    Forall (may_request c (cmd args)) rest.
Proof.
  intros c. destruct (main_trace args tr) as (rest & -> & Hall). fold c in Hall.
  exists (http_requests rest). split.
  - rewrite http_requests_app. reflexivity.
  - apply http_requests_satisfy. exact Hall.
Qed.

(** X2.  Once [parser.parse_args()] has returned the arguments (it exits by
    itself on a bad command line or on --help, before any request), the
    health gate is the only exit left: when the rest of [main] ends in
    [SystemExit], the code is 1 and the health check had returned [False];
    no command raises [SystemExit]. *)
Theorem exit_only_at_gate (args : arguments) (tr tr' : trace) (code : Z) :
  main args tr = (Err (SystemExit code), tr') ->
  code = 1 /\
  fst (check_health (new_client (api_url args) (token args)) tr) = Ok false.
Proof.
  unfold main. set (c := new_client (api_url args) (token args)).
  unfold bind at 1.
  destruct (check_health_run c tr) as (healthy & lines & ->).
  destruct healthy; cbn [negb fst].
  - unfold bind at 1, ret at 1. intros H. exfalso.
    destruct (execute_behaves c (cmd args)
                (tr ++ EvHttp (health_request c) :: map EvPrint lines)%list)
      as (ext & _ & _ & Hexit).
    apply (Hexit code). rewrite H. reflexivity.
  - cbn. intros H. injection H as <- _. split; reflexivity.
Qed.


(** X4.  No command but [delete] sends a DELETE: a VM whose start failed, or
    a batch that stopped half way, is never cleaned up. *)
Theorem no_unasked_delete (args : arguments) (rq : request) :
  (forall name, cmd args <> Delete name) ->
  In rq (http_requests (snd (main args []))) ->
  rq_method rq <> DELETE.
Proof.
  intros Hcmd.
  destruct (main_trace args []) as (rest & -> & Hall).
  cbn [app http_requests]. intros [<-|Hin]; [discriminate|].
  apply http_requests_satisfy in Hall. rewrite Forall_forall in Hall.
  exact (may_request_method _ _ rq (Hall rq Hin) Hcmd).
Qed.

(** ** Client, further *)

(** X5.  An operation succeeds exactly when a response comes back with a
    status it accepts (201 for creations, 200 for start and get, 200 or 204
    for delete) and, delete apart, a body that decodes as JSON; the result is
    then that body, and for delete a fixed message.  So a 200 answer to a
    creation is a failure, and so is a 201 whose body is not JSON. *)
Theorem success_criteria (c : LibGoClient) (op : operation) (tr : trace)
    (result : pyval) :
  fst (perform c op tr) = Ok (true, result) <->
  exists r, net tr (request_of c op) = NetResp r /\
            accepts op (status_code r) = true /\
            success_value op r result.
Proof.
  destruct op; cbn [perform request_of accepts success_value];
    unfold create_vm, start_vm, get_vm, create_snapshot, delete_vm,
      create_request, start_request, get_request, delete_request,
      try_except, bind, send, response_json, ret, raise;
    match goal with
    | |- context [net tr ?q] => destruct (net tr q) as [cls msg|r] eqn:Hnet
    end;
    cbn [fst];
    try (split; [discriminate|intros (r0 & H0 & _); discriminate]).
  all: match goal with
       | |- context [if ?b then _ else _] => destruct b eqn:Hstatus
       end;
    try (split; [discriminate
                |intros (r0 & H0 & H1 & _); injection H0 as <-; congruence]).
  all: try (destruct (json r) as [msg|body] eqn:Hjson; cbn [fst];
            (split;
             [intros H; try discriminate; injection H as <-; exists r; auto
             |intros (r0 & H0 & _ & H2); injection H0 as <-;
              rewrite Hjson in H2; try discriminate; injection H2 as <-;
              reflexivity])).
  cbn [fst]. split.
  - intros H. injection H as <-. exists r. auto.
  - intros (r0 & _ & _ & ->). reflexivity.
Qed.

(** X6.  [check_health] answers [True] exactly on a response with status
    200, whatever its body; every other status and every fault give [False],
    and a fault is printed. *)
Theorem health_criteria (c : LibGoClient) (tr : trace) :
  (fst (check_health c tr) = Ok true <->
   exists r, net tr (health_request c) = NetResp r /\ status_code r = 200) /\
  (forall cls msg,
      net tr (health_request c) = NetRaise cls msg ->
      check_health c tr =
      (Ok false,
       (tr ++ [EvHttp (health_request c);
               EvPrint ("Health check failed: " ++ msg)])%list)).
Proof.
  unfold check_health, try_except, bind, send, print, emit, ret.
  fold (health_request c).
  destruct (net tr (health_request c)) as [cls msg|r] eqn:Hnet; cbn [fst]; split.
  - split; [discriminate|intros (r & H & _); discriminate].
  - intros cls0 msg0 H. injection H as _ <-. rewrite <- app_assoc. reflexivity.
  - split.
    + intros H. injection H as H. exists r. split; [reflexivity|].
      apply Z.eqb_eq. exact H.
    + intros (r0 & H0 & Hs). injection H0 as <-. rewrite Hs. reflexivity.
  - intros cls msg H. discriminate.
Qed.

(** X7.  A 200 answer to [list_vms] whose body is not JSON, or is JSON but
    not an object, is a failure: the call prints why and returns
    [(False, [])]. *)
Theorem list_vms_bad_body (c : LibGoClient) (tr : trace) (r : response)
    (msg : string) :
  net tr (list_request c) = NetResp r ->
  status_code r = 200 ->
  body_error r = Some msg ->
  list_vms c tr =
  (Ok (false, PyList []),
   (tr ++ [EvHttp (list_request c); EvPrint ("List VMs failed: " ++ msg)])%list).
Proof.
  intros Hnet Hstatus Hbody.
  unfold list_vms, try_except, bind, send. fold (list_request c).
  rewrite Hnet, Hstatus. cbn [Z.eqb Pos.eqb].
  unfold body_error in Hbody. unfold response_json.
  destruct (json r) as [m|body].
  - injection Hbody as <-. cbn. rewrite <- app_assoc. reflexivity.
  - destruct body; try discriminate; injection Hbody as <-;
      cbn; rewrite <- app_assoc; reflexivity.
Qed.

(** ** Commands *)







(** ** Request builder, further *)

(** X11.  A template that is not a string is never looked up as a name: a
    list or a dictionary (not hashable) makes [create_windows_vm] raise
    [TypeError] before it prints or sends anything; [None], a boolean or a
    number is reported as an unknown template. *)
Theorem template_not_a_string (c : LibGoClient) (name template_type description : pyval)
    (tr : trace) :
  (forall s, template_type <> PyStr s) ->
  create_windows_vm c name template_type description tr =
  match template_type with
  | PyList _ | PyDict _ =>
      (Err (PyExc "TypeError"
              ("unhashable type: '" ++ type_name template_type ++ "'")), tr)
  | _ =>
      (Ok false,
       (tr ++ [EvPrint ("Unknown template type: " ++ py_str template_type);
               EvPrint available_line])%list)
  end.
Proof.
  intros Hstr.
  destruct template_type as [|b|z|s|l|d];
    try (exfalso; exact (Hstr s eq_refl));
    unfold create_windows_vm, key_in, bind, ret, raise, print, emit;
    cbn -[py_str]; rewrite <- ?app_assoc; reflexivity.
Qed.


(** X13.  The request built from a template of the catalog has exactly the
    keys name, description, template, cpu, memory, disk, network and
    cloudInit, in this order: the template's own entries override neither the
    name nor the description, and its [template] entry is sent along. *)
Theorem vm_config_shape (name template_type description : pyval) (s : string)
    (t : dict) :
  Dict.get s VM_TEMPLATES = Some t ->
  exists cfg,
    vm_config_of name template_type description t = PyDict cfg /\
    Dict.keys cfg = vm_config_keys /\
    Dict.get "name" cfg = Some name /\
    Dict.get "template" cfg = Dict.get "template" t /\
    Dict.get "template" t <> None.
Proof.
  intros H. apply catalog_lookup in H. revert H.
  unfold VM_TEMPLATES. cbn [In].
  intros [H|[H|[H|[H|[]]]]]; injection H as <- <-;
    eexists; (split; [reflexivity|]); cbn; repeat split; discriminate.
Qed.


(** ** Batches, further *)



Lemma requested_names_same (a b : trace) :
  http_requests a = http_requests b -> requested_names a = requested_names b.
Proof. unfold requested_names. intros ->. reflexivity. Qed.







(** X17.  A configuration file whose JSON is not an array creates nothing
    and prints nothing.  The command returns for an empty string or an empty
    object and raises [TypeError] otherwise: a number, a boolean or [null]
    cannot be iterated, and the characters of a string or the keys of an
    object cannot be indexed by ["name"]. *)
Theorem config_not_an_array (c : LibGoClient) (path : string) (v : pyval)
    (tr : trace) :
  path <> "" ->
  fs path = Loaded v ->
  (forall l, v <> PyList l) ->
  exists result,
    create_multiple c (Some path) tr = (result, tr) /\
    (result = Ok tt <-> v = PyStr "" \/ v = PyDict []) /\
    (result <> Ok tt -> exists msg, result = Err (PyExc "TypeError" msg)).
Proof.
  intros Hpath Hfs Hlist.
  rewrite (create_multiple_file c path tr Hpath).
  unfold bind at 1, load_configs. rewrite Hfs.
  unfold ret at 1, bind at 1, iterate.
  destruct v as [|b|z|s|l|d]; try (exfalso; exact (Hlist l eq_refl)).
  1-3: eexists; (split; [reflexivity|]); split;
    [split; [discriminate|intros [H|H]; discriminate]|intros _; eexists; reflexivity].
  - destruct s as [|ch s]; cbn.
    + exists (Ok tt). split; [reflexivity|]. split; [|congruence].
      split; auto.
    + eexists. split; [reflexivity|]. split.
      * split; [discriminate|intros [H|H]; discriminate].
      * intros _. eexists. reflexivity.
  - destruct d as [|[k x] d]; cbn.
    + exists (Ok tt). split; [reflexivity|]. split; [|congruence].
      split; auto.
    + eexists. split; [reflexivity|]. split.
      * split; [discriminate|intros [H|H]; discriminate].
      * intros _. eexists. reflexivity.
Qed.

Lemma list_extraction_run (c : LibGoClient) (tr : trace) (r : response) (d : dict) :
  net tr (list_request c) = NetResp r ->
  status_code r = 200 ->
  json r = inr (PyDict d) ->
  list_vms c tr =
  (Ok (true, match Dict.get "vms" d with Some vms => vms | None => PyList [] end),
   (tr ++ [EvHttp (list_request c)])%list).
Proof.
  intros Hnet Hstatus Hjson.
  unfold list_vms, try_except, bind, send. fold (list_request c).
  rewrite Hnet, Hstatus. cbn [Z.eqb Pos.eqb].
  unfold response_json. rewrite Hjson. cbn.
  destruct (Dict.get "vms" d); reflexivity.
Qed.
(** ** Listing *)





(** X20.  The [list] command returns with one line when there is nothing to
    show: ["Failed to list VMs"] when the answer is not a 200, and
    ["No VMs found."] when the 200 body is an object whose ["vms"] is
    missing, empty or otherwise false. *)
Theorem list_command_nothing (args : arguments) (tr tr1 : trace) (r : response) :
  let c := new_client (api_url args) (token args) in
  cmd args = ListVms ->
  check_health c tr = (Ok true, tr1) ->
  net tr1 (list_request c) = NetResp r ->
  (status_code r <> 200 ->
   main args tr =
   (Ok tt, (tr1 ++ [EvHttp (list_request c); EvPrint "Failed to list VMs"])%list)) /\
  (forall d,
      status_code r = 200 ->
      json r = inr (PyDict d) ->
      truthy (match Dict.get "vms" d with Some vms => vms | None => PyList [] end)
      = false ->
      main args tr =
      (Ok tt, (tr1 ++ [EvHttp (list_request c); EvPrint "No VMs found."])%list)).
Proof.
  intros c Hcmd Hhealth Hnet.
  rewrite (main_healthy args tr tr1 Hhealth). fold c. rewrite Hcmd.
  cbn [execute]. unfold bind at 1. split.
  - intros Hstatus.
    unfold list_vms, try_except, bind, send. fold (list_request c). rewrite Hnet.
    destruct (Z.eqb_spec (status_code r) 200) as [H|_]; [contradiction|].
    cbn. unfold print, emit. rewrite <- app_assoc. reflexivity.
  - intros d Hstatus Hjson Hfalse. unfold bind at 1.
    rewrite (list_extraction_run c tr1 r d Hnet Hstatus Hjson), Hfalse.
    cbn. unfold print, emit. rewrite <- app_assoc. reflexivity.
Qed.

(** ** The session *)

Lemma rstrip_slash_split (s : string) :
  exists k, s = rstrip_slash s ++ repeat_char "/" k.
Proof.
  induction s as [|ch s [k IH]]; [exists 0%nat; reflexivity|].
  cbn [rstrip_slash]. destruct (rstrip_slash s) as [|a u] eqn:Hr.
  - cbn in IH. destruct (Ascii.eqb_spec ch "/") as [->|Hne].
    + exists (S k). cbn. now rewrite IH.
    + exists k. cbn. now rewrite IH.
  - exists k. cbn. cbn in IH. now rewrite IH at 1.
Qed.

Lemma rstrip_slash_end (s t : string) : rstrip_slash s <> t ++ "/".
Proof.
  revert t. induction s as [|ch s IH]; intros t; cbn [rstrip_slash].
  - destruct t; discriminate.
  - destruct (rstrip_slash s) as [|a u] eqn:Hr.
    + destruct (Ascii.eqb_spec ch "/") as [->|Hne].
      * destruct t; discriminate.
      * destruct t as [|b t]; cbn; intros H.
        -- injection H as H1. contradiction.
        -- injection H as _ H2. destruct t; discriminate.
    + destruct t as [|b t]; cbn; intros H.
      * discriminate.
      * injection H as _ H2. exact (IH t H2).
Qed.

(** X21.  The base URL of the client is the URL given without its trailing
    slashes, however many: it never ends in a slash, so the paths appended
    to it never start with a double slash. *)
Theorem base_url_normalised (url : string) (auth_token : option string) :
  let c := new_client url auth_token in
  (exists k, url = base_url c ++ repeat_char "/" k) /\
  (forall t, base_url c <> t ++ "/").
Proof.
  cbn. split; [apply rstrip_slash_split|apply rstrip_slash_end].
Qed.



(** ** Batch isolation *)






(** ** Listing, further *)


End Script.

(** * Concrete runs *)

(** [main] on the sample file system, from an empty trace. *)
Local Abbreviation demo_main net c :=
  (main net demo_fs repr_stub gib_text "usage" (mkArgs API_BASE_URL None c) []).

(** The spec's batch scenario: the second of three creations is refused, the
    third is still requested. *)
Example rigged_batch_requests :
  requested_names (snd (demo_main server_rigged (CreateMultiple (Some "batch.json"))))
  = [Some (PyStr "win-a"); Some (PyStr "win-b"); Some (PyStr "win-c")] /\
  fst (demo_main server_rigged (CreateMultiple (Some "batch.json"))) = Ok tt.
Proof. split; vm_compute; reflexivity. Qed.

(** The exit path of an unhealthy control plane, evaluated. *)
Example unhealthy_run :
  demo_main server_down ListVms =
  (Err (SystemExit 1),
   [EvHttp (health_request demo_client);
    EvPrint "Health check failed: connection refused";
    EvPrint fatal_line]).
Proof. vm_compute. reflexivity. Qed.

(** ** Instances of the theorems *)




Lemma list_extraction_witness :
  list_vms server_up demo_client [] =
  (Ok (true, PyList [PyDict [("name", PyStr "a")]; PyDict [("name", PyStr "b")]]),
   [EvHttp (list_request demo_client)]).
Proof.
  apply (list_extraction server_up demo_client []
           (mkResponse 200 "{...}" (inr (PyDict two_vms))) two_vms);
    reflexivity.
Defined.

Lemma health_gate_witness :
  demo_main server_down (CreateMultiple None) =
  (Err (SystemExit 1),
   ([EvHttp (health_request demo_client);
     EvPrint "Health check failed: connection refused"] ++ [EvPrint fatal_line])%list) /\
  http_requests
    ([EvHttp (health_request demo_client);
      EvPrint "Health check failed: connection refused"] ++ [EvPrint fatal_line])%list
  = ([] ++ [health_request demo_client])%list /\
  1 <> 0.
Proof.
  apply (health_gate server_down demo_fs repr_stub gib_text "usage"
           (mkArgs API_BASE_URL None (CreateMultiple None)) []).
  reflexivity.
Defined.


Lemma malformed_config_raises_witness :
  (forall cls msg,
      demo_fs "absent.json" = OpenRaises cls msg \/
      demo_fs "absent.json" = LoadRaises cls msg ->
      demo_main server_up (CreateMultiple (Some "absent.json")) =
      (Err (PyExc cls msg), [EvHttp (health_request demo_client)])) /\
  (forall before d rest key,
      demo_fs "absent.json" = Loaded (PyList (before ++ PyDict d :: rest)) ->
      missing_key d = Some key ->
      demo_main server_up (CreateMultiple (Some "absent.json")) =
      match for_each before (create_from_config server_up repr_stub gib_text demo_client)
              [EvHttp (health_request demo_client)] with
      | (Ok _, tr2) => (Err (PyExc "KeyError" ("'" ++ key ++ "'")), tr2)
      | (Err e, tr2) => (Err e, tr2)
      end).
Proof.
  apply (malformed_config_raises server_up demo_fs repr_stub gib_text "usage"
           (mkArgs API_BASE_URL None (CreateMultiple (Some "absent.json")))
           "absent.json" [] [EvHttp (health_request demo_client)]).
  - reflexivity.
  - discriminate.
  - reflexivity.
Defined.


(** ** Runs that contradict the specification *)


(** C8 does not hold of a batch file that does not exist: [main] ends in
    the uncaught [FileNotFoundError], with nothing printed. *)
Lemma missing_config_file_crashes :
  demo_main server_up (CreateMultiple (Some "absent.json")) =
  (Err (PyExc "FileNotFoundError"
          "[Errno 2] No such file or directory: 'absent.json'"),
   [EvHttp (health_request demo_client)]).
Proof. vm_compute. reflexivity. Qed.

(** ** Instances of the further properties *)

Lemma exit_only_at_gate_witness :
  1 = 1 /\ fst (check_health server_down demo_client []) = Ok false.
Proof.
  apply (exit_only_at_gate server_down demo_fs repr_stub gib_text "usage"
           (mkArgs API_BASE_URL None ListVms) []
           [EvHttp (health_request demo_client);
            EvPrint "Health check failed: connection refused";
            EvPrint fatal_line] 1).
  reflexivity.
Defined.


Lemma no_unasked_delete_witness :
  rq_method (start_request demo_client "vm1") <> DELETE.
Proof.
  apply (no_unasked_delete server_error demo_fs repr_stub gib_text "usage"
           (mkArgs API_BASE_URL None (Start "vm1"))).
  - discriminate.
  - right. left. reflexivity.
Defined.

Lemma list_vms_bad_body_witness :
  list_vms server_list_array demo_client [] =
  (Ok (false, PyList []),
   [EvHttp (list_request demo_client);
    EvPrint "List VMs failed: 'list' object has no attribute 'get'"]).
Proof.
  apply (list_vms_bad_body server_list_array demo_client []
           (mkResponse 200 "[]" (inr (PyList []))));
    reflexivity.
Defined.




Lemma template_not_a_string_witness :
  create_windows_vm server_up repr_stub gib_text demo_client (PyStr "x") (PyInt 3)
    (PyStr "") [] =
  (Ok false, [EvPrint "Unknown template type: 3"; EvPrint available_line]) /\
  create_windows_vm server_up repr_stub gib_text demo_client (PyStr "x")
    (PyList [PyStr "windows-11-basic"]) (PyStr "") [] =
  (Err (PyExc "TypeError" "unhashable type: 'list'"), []).
Proof.
  split.
  - apply (template_not_a_string server_up repr_stub gib_text demo_client
             (PyStr "x") (PyInt 3) (PyStr "") []).
    discriminate.
  - apply (template_not_a_string server_up repr_stub gib_text demo_client
             (PyStr "x") (PyList [PyStr "windows-11-basic"]) (PyStr "") []).
    discriminate.
Defined.


Lemma vm_config_shape_witness :
  exists cfg,
    vm_config_of repr_stub (PyStr "win1") (PyStr "windows-11-basic") PyNone
      basic_template = PyDict cfg /\
    Dict.keys cfg = vm_config_keys /\
    Dict.get "name" cfg = Some (PyStr "win1") /\
    Dict.get "template" cfg = Dict.get "template" basic_template /\
    Dict.get "template" basic_template <> None.
Proof.
  apply (vm_config_shape repr_stub (PyStr "win1") (PyStr "windows-11-basic") PyNone
           "windows-11-basic" basic_template).
  reflexivity.
Defined.





Lemma config_not_an_array_witness :
  exists result,
    create_multiple server_up object_fs repr_stub gib_text demo_client
      (Some "vms.json") [] = (result, []) /\
    (result = Ok tt <->
     PyDict [("name", PyStr "x")] = PyStr "" \/
     PyDict [("name", PyStr "x")] = PyDict []) /\
    (result <> Ok tt -> exists msg, result = Err (PyExc "TypeError" msg)).
Proof.
  apply (config_not_an_array server_up object_fs repr_stub gib_text demo_client
           "vms.json" (PyDict [("name", PyStr "x")]) []).
  - discriminate.
  - reflexivity.
  - discriminate.
Defined.



Lemma list_command_nothing_witness :
  demo_main server_error ListVms =
  (Ok tt,
   ([EvHttp (health_request demo_client)] ++
    [EvHttp (list_request demo_client); EvPrint "Failed to list VMs"])%list).
Proof.
  apply (list_command_nothing server_error demo_fs repr_stub gib_text "usage"
           (mkArgs API_BASE_URL None ListVms) []
           [EvHttp (health_request demo_client)]
           (mkResponse 500 "internal error" (inl "not JSON")));
    try reflexivity.
  discriminate.
Defined.


(** ** The batch with a refused creation *)


(** ** A size beyond the floats *)

